(** * verify_token.py: account existence checker and report driver

    A shallow embedding of [src/verify_token.py].  The script posts one
    JSON-RPC [getAccountInfo] request per (address, network) pair and prints
    a report.  The two effects of the script, the HTTP exchange and the
    writes to standard output, are threaded through a small state and
    exception monad; Python's dynamically typed operations on the parsed
    response ([in], subscripting, truth value, [is not None], [==]) are
    total functions on a JSON value type that return the exception Python
    would raise. *)

From Stdlib Require Import ZArith String Ascii List Lia.
From Stdlib Require Import Floats.PrimFloat.
From stdpp Require Import base strings gmap list.

Set Warnings "-register-all".
Local Open Scope string_scope.
Local Open Scope list_scope.

(** ** JSON values, as [response.json()] builds them

    [json.loads] maps JSON [null] to [None], booleans to [bool], numbers
    without fraction or exponent to [int] (unbounded), other numbers to
    [float] (binary64), strings to [str], arrays to [list] and objects to
    [dict] with string keys.  The script never iterates over a parsed
    object, so its key order is irrelevant and a finite map is exact.

    A [str] is held as its UTF-8 bytes.  The JSON escapes [\ud800] to
    [\udfff] give a [str] with a lone surrogate, which has no UTF-8 form:
    such a value is a [JStrSurrogate], held as its generalized UTF-8 bytes
    (each surrogate as the three bytes its code point would take).  It is
    a [str] for every operation below; it differs from a [JStr] only when
    it is written to standard output.  Keys of objects are held the same
    way and are only ever compared with ASCII literals. *)

Inductive json : Type :=
| JNull
| JBool (b : bool)
| JInt (n : Z)
| JFloat (f : float)
| JStr (s : string)
| JStrSurrogate (s : string)
| JArr (l : list json)
| JObj (m : gmap string json).

(** ** Python exceptions the script can meet *)

Inductive exn : Type :=
| RequestException            (* raised by [requests.post]: the call did not complete *)
| JSONDecodeError             (* raised by [response.json()]: the body is not JSON *)
| ValueError                  (* raised by [response.json()]: an integer literal over the digit limit *)
| RecursionError              (* raised by [response.json()]: nesting over the recursion limit *)
| UnicodeEncodeError          (* raised by [print]: the text has a lone surrogate *)
| TypeError                   (* [in] or subscript on a value that does not support it *)
| KeyError (k : string).      (* subscript of a dict by an absent key *)

Inductive result (A : Type) : Type :=
| Ok (a : A)
| Raise (e : exn).
Arguments Ok {A} a.
Arguments Raise {A} e.

(** ** Python operations on parsed values *)

Module Py.

(** [pat in s] for two [str]: substring test. *)
Fixpoint str_in (pat s : string) : bool :=
  if String.prefix pat s then true
  else match s with
       | EmptyString => false
       | String _ s' => str_in pat s'
       end.

(** [x == k] where [k] is a [str] literal: only an equal [str] compares
    equal, and a literal holds no lone surrogate. *)
Definition eq_str (x : json) (k : string) : bool :=
  match x with
  | JStr s => String.eqb s k
  | _ => false
  end.

(** [k in d] for a [str] literal k: key membership on a dict, substring
    on a str (on the bytes, which for UTF-8 and its generalized form finds
    exactly the substrings), element membership (by [==]) on a list;
    [None], [bool], [int] and [float] are not iterable. *)
Definition contains (k : string) (d : json) : result bool :=
  match d with
  | JObj m => Ok (bool_decide (is_Some (m !! k)))
  | JStr s | JStrSurrogate s => Ok (str_in k s)
  | JArr l => Ok (existsb (fun x => eq_str x k) l)
  | JNull | JBool _ | JInt _ | JFloat _ => Raise TypeError
  end.

(** [d[k]] for a [str] k: dict lookup or [KeyError]; a str or a list
    cannot be indexed by a str, the other types are not subscriptable. *)
Definition getitem (d : json) (k : string) : result json :=
  match d with
  | JObj m => match m !! k with
              | Some v => Ok v
              | None => Raise (KeyError k)
              end
  | _ => Raise TypeError
  end.

(** [x is not None] *)
Definition is_not_none (x : json) : bool :=
  match x with
  | JNull => false
  | _ => true
  end.

(** [bool(x)], the truth value used by [if] and [and]. *)
Definition truthy (x : json) : bool :=
  match x with
  | JNull => false
  | JBool b => b
  | JInt n => negb (n =? 0)%Z
  | JFloat f => negb (PrimFloat.eqb f 0%float)
  | JStr s | JStrSurrogate s => negb (String.eqb s "")
  | JArr l => match l with [] => false | _ => true end
  | JObj m => negb (bool_decide (m = ∅))
  end.

(** [s * n] for a str s. *)
Fixpoint str_mul (s : string) (n : nat) : string :=
  match n with
  | O => ""
  | S n' => s +:+ str_mul s n'
  end.

End Py.

(** ** The outside world

    A [reply] is what one HTTP POST brings back: nothing (the call raised),
    or a response.  The body of a response is not JSON, or parses to a
    JSON value, or is JSON that [json.loads] gives up on with an exception
    of its own: an integer literal with more digits than the interpreter
    converts (ValueError), or arrays and objects nested deeper than the
    recursion limit (RecursionError).  A [network] answers the [n]-th request of a run, given its URL
    and JSON body; letting the answer depend on [n] covers endpoints whose
    state changes between two requests.  The script sets no timeout: a
    request that is never answered has no reply, and such runs are outside
    this model. *)

Inductive reply : Type :=
| NoResponse
| Response (body : option json)
| IntegerTooLong
| NestedTooDeep.

Definition network : Type := nat -> string -> json -> reply.

(** The process state: the requests issued so far, answered or not, and
    the texts written by the [print] calls so far, oldest first. *)
Record world : Type := World {
  sent : list (string * json);
  stdout : list string
}.

Definition initial : world := World [] [].

(** ** State and exception monad *)

Definition M (A : Type) : Type := world -> result A * world.

Global Instance M_ret : MRet M := fun A a w => (Ok a, w).

Global Instance M_bind : MBind M := fun A B k m w =>
  match m w with
  | (Ok a, w') => k a w'
  | (Raise e, w') => (Raise e, w')
  end.

Global Instance M_throw : MThrow exn M := fun A e w => (Raise e, w).

(** A Python expression evaluated in place: its value, or its exception. *)
Definition lift {A} (r : result A) : M A := fun w => (r, w).

(** The argument of a [print] call: text, as its UTF-8 bytes, or a str
    with a lone surrogate, as its generalized UTF-8 bytes. *)
Inductive pystr : Type :=
| Text (s : string)
| Surrogates (s : string).

(** [prefix + t] for a literal prefix, as an f-string builds it. *)
Definition str_add (prefix : string) (t : pystr) : pystr :=
  match t with
  | Text s => Text (prefix +:+ s)
  | Surrogates s => Surrogates (prefix +:+ s)
  end.

(** [print(t)] to a standard output that encodes UTF-8 strictly, the
    interpreter's default: a str with a lone surrogate cannot be encoded
    and nothing of it is written. *)
Definition print (t : pystr) : M unit :=
  fun w =>
    match t with
    | Text s => (Ok tt, World (sent w) (stdout w ++ [s]))
    | Surrogates _ => (Raise UnicodeEncodeError, w)
    end.

Fixpoint for_each {A} (l : list A) (body : A -> M unit) : M unit :=
  match l with
  | [] => mret tt
  | x :: l' => body x ;; for_each l' body
  end.

(** The exit status of the interpreter: 0 when the script runs to its end,
    1 when an exception reaches the top level. *)
Definition exit_code {A} (r : result A) : Z :=
  match r with
  | Ok _ => 0
  | Raise _ => 1
  end.

(** ** The script *)

Definition TOKEN_PROGRAM : string := "TokenkegQfeZyiNwAJbNbGKPFXCWuBvf9Ss623VQ5DA".

Definition nl : string := String "010"%char "".

Section Script.

(** The endpoints the run talks to. *)
Variable net : network.

(** [str(x)] of a value that is not a [str], as an f-string inserts it
    (the [repr] of numbers and containers); no statement below depends
    on that text.  A [repr] escapes the surrogates of the strings inside
    a container, so it is always text. *)
Variable py_repr : json -> string.

(** The bytes of [str(x)]. *)
Definition format (x : json) : string :=
  match x with
  | JStr s | JStrSurrogate s => s
  | _ => py_repr x
  end.

(** [str(x)], as an f-string inserts it. *)
Definition str_of (x : json) : pystr :=
  match x with
  | JStrSurrogate s => Surrogates s
  | _ => Text (format x)
  end.

(** [requests.post(url, json=payload)]: the response, when there is one. *)
Definition requests_post (url : string) (payload : json) : M reply :=
  fun w =>
    let w' := World (sent w ++ [(url, payload)]) (stdout w) in
    match net (length (sent w)) url payload with
    | NoResponse => (Raise RequestException, w')
    | response => (Ok response, w')
    end.

(** [response.json()]; [requests] turns the decoder's JSONDecodeError
    into its own and lets every other exception of [json.loads] through.
    ([requests_post] never returns [NoResponse].) *)
Definition response_json (response : reply) : M json :=
  match response with
  | Response (Some data) => mret data
  | Response None => mthrow JSONDecodeError
  | IntegerTooLong => mthrow ValueError
  | NestedTooDeep => mthrow RecursionError
  | NoResponse => mthrow RequestException
  end.

Definition url_of (network : string) : string :=
  if String.eqb network "devnet"
  then "https://api." +:+ network +:+ ".solana.com"
  else "https://api.mainnet-beta.solana.com".

Definition payload_of (address : string) : json :=
  JObj {[ "jsonrpc" := JStr "2.0";
          "id" := JInt 1;
          "method" := JStr "getAccountInfo";
          "params" := JArr [JStr address; JObj {[ "encoding" := JStr "base64" ]}] ]}.

(** [check_account(address, network)]; the driver always passes the
    selector, so its default is not modelled. *)
Definition check_account (address network : string) : M (bool * json) :=
  let url := url_of network in
  let payload := payload_of address in
  response ← requests_post url payload ;
  data ← response_json response ;
  has_error ← lift (Py.contains "error" data) ;
  if has_error : bool then
    e ← lift (Py.getitem data "error") ;
    mret (false, e)
  else
    r ← lift (Py.getitem data "result") ;
    v ← lift (Py.getitem r "value") ;
    r' ← lift (Py.getitem data "result") ;
    mret (Py.is_not_none v, r').

(** The dict literal of [main], in insertion order, which is the order
    [tokens.items()] yields. *)
Definition tokens : list (string * string) :=
  [ ("USDC (current)", "4k3Dyjzvzp8eMZWUXbBCjEvwSkkk59S5iCNLY3QrkX6R");
    ("RAY", "4k3Dyjzvzp8eMZWUXbBCjEvwSkkk59S5iCNLY3QrkX6R");
    ("SOL", "So11111111111111111111111111111111111111112");
    ("DevNet USDC (known)", "Gh9ZwEmdLJ8DscKNTkTqPbNwLNNBjuSzaG9Vp2KGtKJr");
    ("DevNet USDC (alt)", "4zMMC9srt5Ri5X14GAgXhaHii3GnPAEERYPJgZJDncDU") ].

Definition existence_text (found : bool) : string :=
  if found then "✅ EXISTS" else "❌ NOT FOUND".

(** The last statement of the loop body: the owner report, driven by the
    DevNet result alone. *)
Definition owner_report (exists_devnet : bool) (result_devnet : json) : M unit :=
  go ← (if exists_devnet
         then v ← lift (Py.getitem result_devnet "value") ; mret (Py.truthy v)
         else mret false) ;
  if go : bool then
    account_data ← lift (Py.getitem result_devnet "value") ;
    has_owner ← (if Py.truthy account_data
                  then lift (Py.contains "owner" account_data)
                  else mret false) ;
    if has_owner : bool then
      owner ← lift (Py.getitem account_data "owner") ;
      print (str_add "   Owner: " (str_of owner)) ;;
      if Py.eq_str owner TOKEN_PROGRAM
      then print (Text "   ✅ Owned by SPL Token Program")
      else print (Text "   ⚠️  Different owner")
    else mret tt
  else mret tt.

(** The three f-strings of the loop body whose parts are literals and
    strings of the table. *)
Definition header (name address : string) : string :=
  nl +:+ "📊 " +:+ name +:+ ": " +:+ address.

Definition devnet_line (exists_devnet : bool) : string :=
  "   DevNet: " +:+ existence_text exists_devnet.

Definition mainnet_line (exists_mainnet : bool) : string :=
  "   Mainnet: " +:+ existence_text exists_mainnet.

(** The body of the [for name, address in tokens.items()] loop. *)
Definition entry (name address : string) : M unit :=
  print (Text (header name address)) ;;
  '(exists_devnet, result_devnet) ← check_account address "devnet" ;
  print (Text (devnet_line exists_devnet)) ;;
  '(exists_mainnet, result_mainnet) ← check_account address "mainnet-beta" ;
  print (Text (mainnet_line exists_mainnet)) ;;
  owner_report exists_devnet result_devnet.

(** [main], with the table it iterates over as a parameter (the script
    has the dict literal [tokens] in its body). *)
Definition main_over (table : list (string * string)) : M unit :=
  print (Text "🔍 VERIFICACIÓN DE TOKENS EN DEVNET") ;;
  print (Text (Py.str_mul "=" 50)) ;;
  for_each table (fun '(name, address) => entry name address).

Definition main : M unit := main_over tokens.

End Script.

(** ** Vocabulary of the statements *)

(** Member [k] of a JSON object; a value that is not an object has none. *)
Definition field (k : string) (d : json) : option json :=
  match d with
  | JObj m => m !! k
  | _ => None
  end.

(** The reply the endpoint gives to the request that [check_account address
    network] sends from world [w]. *)
Definition answer (net : network) (w : world) (address network : string) : reply :=
  net (length (sent w)) (url_of network) (payload_of address).

(** What [check_account] makes of a parsed body, and of a reply. *)
Definition interpret (data : json) : result (bool * json) :=
  match Py.contains "error" data with
  | Raise e => Raise e
  | Ok true =>
      match Py.getitem data "error" with
      | Ok e => Ok (false, e)
      | Raise e => Raise e
      end
  | Ok false =>
      match Py.getitem data "result" with
      | Raise e => Raise e
      | Ok r =>
          match Py.getitem r "value" with
          | Raise e => Raise e
          | Ok v => Ok (Py.is_not_none v, r)
          end
      end
  end.

Definition outcome (a : reply) : result (bool * json) :=
  match a with
  | NoResponse => Raise RequestException
  | Response None => Raise JSONDecodeError
  | Response (Some data) => interpret data
  | IntegerTooLong => Raise ValueError
  | NestedTooDeep => Raise RecursionError
  end.

(** The two shapes of a reply that the report prints as NOT FOUND. *)
Definition rpc_error (a : reply) : Prop :=
  exists m e, a = Response (Some (JObj m)) /\ m !! "error" = Some e.

Definition not_found (a : reply) : Prop :=
  exists data r,
    a = Response (Some data) /\ field "error" data = None /\
    field "result" data = Some r /\ field "value" r = Some JNull.

(** Two replies that the report cannot tell apart: the same reply, or an
    RPC error on one side and an absent account on the other. *)
Definition absent (a : reply) : Prop := rpc_error a \/ not_found a.

Definition alike (a1 a2 : reply) : Prop := a1 = a2 \/ (absent a1 /\ absent a2).

(** A reply that is neither: the body is not JSON, or it has no [error]
    member and no [result] member with a [value] member. *)
Definition malformed (a : reply) : Prop :=
  a = Response None \/
  exists data,
    a = Response (Some data) /\ field "error" data = None /\
    (forall r, field "result" data = Some r -> field "value" r = None).

(** The response of the data model: an [error] member, or a [result]
    whose [value] is null or an object. *)
Definition expected_shape (data : json) : Prop :=
  is_Some (field "error" data) \/
  exists r v,
    field "result" data = Some r /\ field "value" r = Some v /\
    (v = JNull \/ exists m, v = JObj m).

Definition well_shaped (a : reply) : Prop :=
  exists data, a = Response (Some data) /\ expected_shape data.

(** Whether the owner lookup of the driver raises on a [value]: it is
    reached for a truthy value only, and then needs [in] and a subscript
    by a str to be defined. *)
Definition owner_lookup_raises (v : json) : bool :=
  Py.truthy v &&
  match v with
  | JObj _ => false
  | JStr s | JStrSurrogate s => Py.str_in "owner" s
  | JArr l => existsb (fun x => Py.eq_str x "owner") l
  | _ => true
  end.

(** Whether [print] can write [str(x)]. *)
Definition encodable (x : json) : bool :=
  match x with
  | JStrSurrogate _ => false
  | _ => true
  end.

(** What the owner [print] does with the member [owner] of a value. *)
Definition owner_print_outcome (v : json) : result unit :=
  match field "owner" v with
  | Some (JStrSurrogate _) => Raise UnicodeEncodeError
  | _ => Ok tt
  end.

(** The replies whose account, if any, has an owner that can be printed. *)
Definition owner_encodable (a : reply) : Prop :=
  forall data r v o,
    a = Response (Some data) -> field "result" data = Some r ->
    field "value" r = Some v -> field "owner" v = Some o ->
    encodable o = true.

(** The requests of a whole run over a table, in order. *)
Definition requests_of (table : list (string * string)) : list (string * json) :=
  flat_map (fun '(_, address) =>
              [(url_of "devnet", payload_of address);
               (url_of "mainnet-beta", payload_of address)]) table.

(** How one entry ends: after the DevNet request, after the Mainnet
    request, or after the owner report. *)
Inductive entry_end (net : network) (address : string) (n : nat) :
  result unit -> list (string * json) -> Prop :=
| end_devnet e :
    outcome (net n (url_of "devnet") (payload_of address)) = Raise e ->
    entry_end net address n (Raise e) [(url_of "devnet", payload_of address)]
| end_mainnet b1 r1 e :
    outcome (net n (url_of "devnet") (payload_of address)) = Ok (b1, r1) ->
    outcome (net (S n) (url_of "mainnet-beta") (payload_of address)) = Raise e ->
    entry_end net address n (Raise e)
      [(url_of "devnet", payload_of address); (url_of "mainnet-beta", payload_of address)]
| end_report b1 r1 b2 r2 res :
    outcome (net n (url_of "devnet") (payload_of address)) = Ok (b1, r1) ->
    outcome (net (S n) (url_of "mainnet-beta") (payload_of address)) = Ok (b2, r2) ->
    (forall py w, fst (owner_report py b1 r1 w) = res) ->
    entry_end net address n res
      [(url_of "devnet", payload_of address); (url_of "mainnet-beta", payload_of address)].

(** The exceptions a run can end with. *)
Definition run_exception (e : exn) : Prop :=
  e = RequestException \/ e = JSONDecodeError \/ e = ValueError \/
  e = RecursionError \/ e = TypeError \/
  e = KeyError "result" \/ e = KeyError "value" \/ e = UnicodeEncodeError.

(** The lines of one entry after its header: none, the DevNet line, both
    existence lines, or both followed by the owner line and its verdict. *)
Inductive block_rest (py : json -> string) : result unit -> list string -> Prop :=
| rest_none e :
    block_rest py (Raise e) []
| rest_devnet b1 e :
    block_rest py (Raise e) [devnet_line b1]
| rest_both b1 b2 res :
    block_rest py res [devnet_line b1; mainnet_line b2]
| rest_owner b2 o :
    block_rest py (Ok tt)
      [devnet_line true; mainnet_line b2;
       "   Owner: " +:+ format py o;
       if Py.eq_str o TOKEN_PROGRAM
       then "   ✅ Owned by SPL Token Program"
       else "   ⚠️  Different owner"].

(** ** Sample replies and endpoints *)

Definition SOL_MINT : string := "So11111111111111111111111111111111111111112".

(** An account owned by [owner]. *)
Definition body_exists (owner : string) : json :=
  JObj {[ "jsonrpc" := JStr "2.0";
          "result" := JObj {[ "context" := JObj {[ "slot" := JInt 1 ]};
                              "value" := JObj {[ "owner" := JStr owner;
                                                 "lamports" := JInt 1461600;
                                                 "executable" := JBool false ]} ]};
          "id" := JInt 1 ]}.

Definition body_not_found : json :=
  JObj {[ "jsonrpc" := JStr "2.0";
          "result" := JObj {[ "context" := JObj {[ "slot" := JInt 1 ]};
                              "value" := JNull ]};
          "id" := JInt 1 ]}.

Definition body_rpc_error : json :=
  JObj {[ "jsonrpc" := JStr "2.0";
          "error" := JObj {[ "code" := JInt (-32602);
                             "message" := JStr "Invalid param: Invalid" ]};
          "id" := JInt 1 ]}.


(** The str that the JSON text ["\ud800"] parses to. *)
Definition lone_surrogate : json :=
  JStrSurrogate (String "237"%char (String "160"%char (String "128"%char ""))).

(** An account whose [owner] is that str. *)
Definition body_owner_surrogate : json :=
  JObj {[ "jsonrpc" := JStr "2.0";
          "result" := JObj {[ "context" := JObj {[ "slot" := JInt 1 ]};
                              "value" := JObj {[ "owner" := lone_surrogate ]} ]};
          "id" := JInt 1 ]}.

(** A [result.value] that is not null but empty. *)
Definition body_value_empty : json :=
  JObj {[ "jsonrpc" := JStr "2.0";
          "result" := JObj {[ "value" := JObj ∅ ]};
          "id" := JInt 1 ]}.

(** An endpoint pair that answers by URL alone. *)
Definition net_by_url (devnet mainnet : reply) : network :=
  fun _ url _ =>
    if String.eqb url "https://api.devnet.solana.com" then devnet else mainnet.

(** A rendering of non-str values for the sample runs. *)
Definition repr_any : json -> string := fun _ => "<repr>".

(** ** Unfolding the monad *)

Ltac run_M :=
  unfold mbind, M_bind, mret, M_ret, mthrow, M_throw, lift, print in *;
  cbn [fst snd sent stdout] in *.

Lemma check_account_unfold net address network w :
  check_account net address network w =
  (outcome (answer net w address network),
   World (sent w ++ [(url_of network, payload_of address)]) (stdout w)).
Proof.
  unfold check_account, requests_post, response_json, answer, outcome, interpret.
  run_M.
  destruct (net _ _ _) as [|[data|]| |]; try reflexivity.
  run_M.
  destruct (Py.contains "error" data) as [[|]|]; try reflexivity.
  - destruct (Py.getitem data "error"); reflexivity.
  - destruct (Py.getitem data "result") as [r|]; try reflexivity.
    destruct (Py.getitem r "value"); reflexivity.
Qed.

(** ** Sample evaluations *)

Example url_devnet : url_of "devnet" = "https://api.devnet.solana.com".
Proof. reflexivity. Qed.

Example url_mainnet : url_of "mainnet-beta" = "https://api.mainnet-beta.solana.com".
Proof. reflexivity. Qed.

Example separator_line :
  Py.str_mul "=" 50 = "==================================================".
Proof. reflexivity. Qed.

Example str_in_inside : Py.str_in "owner" "the owner is" = true.
Proof. reflexivity. Qed.

Example str_in_missing : Py.str_in "owner" "own er" = false.
Proof. reflexivity. Qed.

Example contains_number : Py.contains "owner" (JInt 5) = Raise TypeError.
Proof. reflexivity. Qed.

Example getitem_missing : Py.getitem (JObj ∅) "result" = Raise (KeyError "result").
Proof. reflexivity. Qed.

Example truthy_empty_object : Py.truthy (JObj ∅) = false.
Proof. reflexivity. Qed.

Example truthy_negative_zero : Py.truthy (JFloat (-0)%float) = false.
Proof. reflexivity. Qed.

Example contains_surrogate_str :
  Py.contains "owner" lone_surrogate = Ok false.
Proof. reflexivity. Qed.

Example print_surrogate_str :
  print (str_add "   Owner: " (str_of repr_any lone_surrogate)) initial =
  (Raise UnicodeEncodeError, initial).
Proof. reflexivity. Qed.

Example check_overlong_integer :
  fst (check_account (net_by_url IntegerTooLong NoResponse) SOL_MINT "devnet" initial) =
  Raise ValueError.
Proof. reflexivity. Qed.

Example check_deep_nesting :
  fst (check_account (net_by_url NestedTooDeep NoResponse) SOL_MINT "devnet" initial) =
  Raise RecursionError.
Proof. reflexivity. Qed.

(** A whole run against a DevNet that knows every account, owned by the
    Token Program, and a Mainnet that knows none. *)
Example run_all_found_on_devnet :
  main (net_by_url (Response (Some (body_exists TOKEN_PROGRAM)))
                   (Response (Some body_not_found)))
       repr_any initial =
  (Ok tt,
   World (requests_of tokens)
     (["🔍 VERIFICACIÓN DE TOKENS EN DEVNET";
       "=================================================="] ++
      flat_map (fun '(name, address) =>
                  [header name address;
                   "   DevNet: ✅ EXISTS";
                   "   Mainnet: ❌ NOT FOUND";
                   "   Owner: TokenkegQfeZyiNwAJbNbGKPFXCWuBvf9Ss623VQ5DA";
                   "   ✅ Owned by SPL Token Program"]) tokens)).
Proof. reflexivity. Qed.

(** The same run with a Mainnet whose first reply is not JSON stops in the
    first entry. *)
Example run_stops_at_bad_reply :
  main (net_by_url (Response (Some (body_exists "11111111111111111111111111111111")))
                   (Response None))
       repr_any initial =
  (Raise JSONDecodeError,
   World (requests_of [("USDC (current)", "4k3Dyjzvzp8eMZWUXbBCjEvwSkkk59S5iCNLY3QrkX6R")])
     ["🔍 VERIFICACIÓN DE TOKENS EN DEVNET";
      "==================================================";
      header "USDC (current)" "4k3Dyjzvzp8eMZWUXbBCjEvwSkkk59S5iCNLY3QrkX6R";
      "   DevNet: ✅ EXISTS"]).
Proof. reflexivity. Qed.

(** ** Python operations against the object view *)

Lemma getitem_Ok d k v : Py.getitem d k = Ok v <-> field k d = Some v.
Proof.
  destruct d; simpl; try (split; discriminate).
  destruct (m !! k); split; congruence.
Qed.

Lemma contains_true_field k d :
  field k d = None -> Py.contains k d = Ok true -> forall x, Py.getitem d k <> Ok x.
Proof.
  intros Hf _ x Hx. apply getitem_Ok in Hx. congruence.
Qed.

Lemma contains_obj k m :
  Py.contains k (JObj m) = Ok (bool_decide (is_Some (m !! k))).
Proof. reflexivity. Qed.

Lemma is_not_none_true v : Py.is_not_none v = true <-> v <> JNull.
Proof. destruct v; simpl; split; congruence. Qed.

Lemma is_not_none_false v : Py.is_not_none v = false <-> v = JNull.
Proof. destruct v; simpl; split; congruence. Qed.


(** A body with an [error] member is answered from that member alone. *)
Lemma interpret_error data e :
  field "error" data = Some e -> interpret data = Ok (false, e).
Proof.
  destruct data; simpl; try discriminate.
  intros H. unfold interpret. rewrite contains_obj, bool_decide_eq_true_2 by eauto.
  simpl. rewrite H. reflexivity.
Qed.

(** A body without one is answered from [result] and [result.value]. *)
Lemma interpret_result data b r :
  field "error" data = None ->
  interpret data = Ok (b, r) <->
  field "result" data = Some r /\
  exists v, field "value" r = Some v /\ b = Py.is_not_none v.
Proof.
  intros Hno. unfold interpret.
  destruct (Py.contains "error" data) as [[|]|] eqn:Hc.
  - split.
    + destruct (Py.getitem data "error") as [x|] eqn:Hx; [|discriminate].
      exfalso. eapply contains_true_field; eauto.
    + intros [Hr _]. destruct data; simpl in *; try discriminate.
      injection Hc as Hc. apply bool_decide_eq_true_1 in Hc.
      rewrite Hno in Hc. destruct Hc; discriminate.
  - destruct (Py.getitem data "result") as [r0|] eqn:Hr.
    + apply getitem_Ok in Hr.
      destruct (Py.getitem r0 "value") as [v|] eqn:Hv.
      * apply getitem_Ok in Hv. split.
        -- intros [= <- <-]. eauto.
        -- intros [Hr' (v' & Hv' & ->)]. congruence.
      * split; [discriminate|].
        intros [Hr' (v' & Hv' & _)].
        assert (r0 = r) as -> by congruence.
        apply getitem_Ok in Hv'. congruence.
    + split; [discriminate|].
      intros [Hr' _]. apply getitem_Ok in Hr'. congruence.
  - split; [discriminate|].
    intros [Hr' _]. destruct data; simpl in *; discriminate.
Qed.

(** ** The checker *)

(** C1: for every parsed response body without an [error] key,
    [check_account] returns flag true (Exists) exactly when [result.value]
    is present and not null, returns flag false (NotFound) exactly when
    [result.value] is null, and in both cases the second component of the
    returned pair is the full [result] object of the body. *)
Theorem check_account_exists_iff_value net address network w data :
  answer net w address network = Response (Some data) ->
  field "error" data = None ->
  (forall r, fst (check_account net address network w) = Ok (true, r) <->
     field "result" data = Some r /\
     exists v, field "value" r = Some v /\ v <> JNull) /\
  (forall r, fst (check_account net address network w) = Ok (false, r) <->
     field "result" data = Some r /\ field "value" r = Some JNull).
Proof.
  intros Ha Hno. rewrite check_account_unfold, Ha. cbn [fst outcome].
  split; intros r; rewrite interpret_result by assumption.
  - split.
    + intros [Hr (v & Hv & Hb)]. split; [assumption|].
      exists v. split; [assumption|]. apply is_not_none_true. congruence.
    + intros [Hr (v & Hv & Hb)]. split; [assumption|].
      exists v. split; [assumption|]. symmetry. apply is_not_none_true, Hb.
  - split.
    + intros [Hr (v & Hv & Hb)]. split; [assumption|].
      symmetry in Hb. apply is_not_none_false in Hb. congruence.
    + intros [Hr Hv]. split; [assumption|]. exists JNull. split; [assumption|reflexivity].
Qed.

Lemma check_account_exists_iff_value_sample :
  fst (check_account (net_by_url (Response (Some (body_exists TOKEN_PROGRAM))) NoResponse)
         SOL_MINT "devnet" initial) =
  Ok (true,
      JObj {[ "context" := JObj {[ "slot" := JInt 1 ]};
              "value" := JObj {[ "owner" := JStr TOKEN_PROGRAM;
                                 "lamports" := JInt 1461600;
                                 "executable" := JBool false ]} ]}).
Proof.
  apply (proj1 (check_account_exists_iff_value
    (net_by_url (Response (Some (body_exists TOKEN_PROGRAM))) NoResponse)
    SOL_MINT "devnet" initial (body_exists TOKEN_PROGRAM) eq_refl eq_refl)).
  split; [reflexivity|]. eexists. split; [reflexivity|discriminate].
Defined.

(** C2: for every parsed response body with an [error] key,
    [check_account] returns the pair of the flag false and exactly the
    value of that key, whatever else the body holds. *)
Theorem check_account_error_verbatim net address network w m e :
  answer net w address network = Response (Some (JObj m)) ->
  m !! "error" = Some e ->
  fst (check_account net address network w) = Ok (false, e).
Proof.
  intros Ha He. rewrite check_account_unfold, Ha. cbn [fst outcome].
  apply interpret_error. exact He.
Qed.

Lemma check_account_error_verbatim_sample :
  fst (check_account (net_by_url (Response (Some body_rpc_error)) NoResponse)
         "not-base58" "devnet" initial) =
  Ok (false,
      JObj {[ "code" := JInt (-32602); "message" := JStr "Invalid param: Invalid" ]}).
Proof.
  exact (check_account_error_verbatim
    (net_by_url (Response (Some body_rpc_error)) NoResponse)
    "not-base58" "devnet" initial _ _ eq_refl eq_refl).
Defined.

(** C6: whatever the address, [check_account] sends exactly one request,
    to [https://api.devnet.solana.com] for the selector [devnet] and to
    [https://api.mainnet-beta.solana.com] for [mainnet-beta]; the address
    only appears in the posted body. *)
Theorem check_account_url_by_network net address w :
  sent (snd (check_account net address "devnet" w)) =
    sent w ++ [("https://api.devnet.solana.com", payload_of address)] /\
  sent (snd (check_account net address "mainnet-beta" w)) =
    sent w ++ [("https://api.mainnet-beta.solana.com", payload_of address)].
Proof.
  rewrite !check_account_unfold. split; reflexivity.
Qed.

(** ** The report driver, one entry *)

Lemma length_snoc {A} (l : list A) (x : A) : length (l ++ [x]) = S (length l).
Proof. rewrite length_app. simpl. lia. Qed.

Lemma entry_run net py name address w :
  entry net py name address w =
  let req1 := (url_of "devnet", payload_of address) in
  let req2 := (url_of "mainnet-beta", payload_of address) in
  match outcome (answer net w address "devnet") with
  | Raise e =>
      (Raise e, World (sent w ++ [req1]) (stdout w ++ [header name address]))
  | Ok (b1, r1) =>
      match outcome (net (S (length (sent w))) (url_of "mainnet-beta") (payload_of address)) with
      | Raise e =>
          (Raise e,
           World (sent w ++ [req1; req2])
                 (stdout w ++ [header name address; devnet_line b1]))
      | Ok (b2, r2) =>
          owner_report py b1 r1
            (World (sent w ++ [req1; req2])
                   (stdout w ++ [header name address; devnet_line b1; mainnet_line b2]))
      end
  end.
Proof.
  unfold entry. cbv zeta.
  unfold mbind at 1, M_bind at 1. unfold print at 1.
  unfold mbind at 1, M_bind at 1. rewrite check_account_unfold.
  unfold answer. cbn [sent stdout].
  destruct (outcome (net (length (sent w)) _ _)) as [[b1 r1]|e]; [|reflexivity].
  unfold mbind at 1, M_bind at 1. unfold print at 1. cbn [sent stdout].
  unfold mbind at 1, M_bind at 1. rewrite check_account_unfold.
  unfold answer. cbn [sent stdout]. rewrite length_snoc.
  rewrite <- !app_assoc. cbn [app].
  destruct (outcome (net (S (length (sent w))) _ _)) as [[b2 r2]|e]; [|reflexivity].
  unfold mbind at 1, M_bind at 1. unfold print at 1. cbn [sent stdout].
  rewrite <- !app_assoc. reflexivity.
Qed.

(** *** The owner report *)

Lemma world_eta w : World (sent w) (stdout w) = w.
Proof. destruct w; reflexivity. Qed.

Lemma truthy_obj_with_member m k (x : json) :
  m !! k = Some x -> Py.truthy (JObj m) = true.
Proof.
  intros H. simpl. rewrite bool_decide_eq_false_2; [reflexivity|].
  intros ->. rewrite lookup_empty in H. discriminate.
Qed.

Lemma owner_report_skip py r w : owner_report py false r w = (Ok tt, w).
Proof. reflexivity. Qed.

Lemma owner_report_with_owner py r v o w :
  field "value" r = Some v ->
  field "owner" v = Some o ->
  encodable o = true ->
  owner_report py true r w =
  (Ok tt,
   World (sent w)
         (stdout w ++
          ["   Owner: " +:+ format py o;
           if Py.eq_str o TOKEN_PROGRAM
           then "   ✅ Owned by SPL Token Program"
           else "   ⚠️  Different owner"])).
Proof.
  intros Hv Ho Henc. apply getitem_Ok in Hv.
  destruct v as [| | | | | | |m]; simpl in Ho; try discriminate.
  unfold owner_report. run_M. rewrite Hv.
  rewrite (truthy_obj_with_member m "owner" o Ho).
  rewrite contains_obj, bool_decide_eq_true_2 by eauto.
  simpl. rewrite Ho.
  assert (str_of py o = Text (format py o)) as ->
    by (destruct o; try reflexivity; discriminate).
  cbn [str_add sent stdout].
  destruct (Py.eq_str o TOKEN_PROGRAM); cbn [sent stdout];
    rewrite <- app_assoc; reflexivity.
Qed.

(** An owner with a lone surrogate stops the report at its first line. *)
Lemma owner_report_unencodable py r v o w :
  field "value" r = Some v ->
  field "owner" v = Some o ->
  encodable o = false ->
  owner_report py true r w = (Raise UnicodeEncodeError, w).
Proof.
  intros Hv Ho Henc. apply getitem_Ok in Hv.
  destruct v as [| | | | | | |m]; simpl in Ho; try discriminate.
  unfold owner_report. run_M. rewrite Hv.
  rewrite (truthy_obj_with_member m "owner" o Ho).
  rewrite contains_obj, bool_decide_eq_true_2 by eauto.
  simpl. rewrite Ho.
  destruct o; try discriminate. reflexivity.
Qed.

Lemma owner_report_without_owner py r v w :
  field "value" r = Some v ->
  field "owner" v = None ->
  exists res, owner_report py true r w = (res, w).
Proof.
  intros Hv Ho. apply getitem_Ok in Hv.
  unfold owner_report. run_M. rewrite Hv.
  destruct (Py.truthy v) eqn:Ht; [|eauto].
  destruct v as [| | | |s|s|l|m]; cbn [Py.contains]; eauto.
  - destruct (Py.str_in "owner" s); simpl; eauto.
  - destruct (Py.str_in "owner" s); simpl; eauto.
  - destruct (existsb _ l); simpl; eauto.
  - simpl in Ho. rewrite bool_decide_eq_false_2; [eauto|].
    rewrite Ho. intros [x Hx]. discriminate.
Qed.

(** The report never sends a request and only ever adds lines. *)
Lemma owner_report_frame py b r w :
  exists res lines,
    owner_report py b r w = (res, World (sent w) (stdout w ++ lines)).
Proof.
  destruct b.
  - destruct (field "value" r) as [v|] eqn:Hv.
    + destruct (field "owner" v) as [o|] eqn:Ho.
      * destruct (encodable o) eqn:Henc.
        -- eexists _, _. eapply owner_report_with_owner; eauto.
        -- exists (Raise UnicodeEncodeError), [].
           rewrite app_nil_r, world_eta.
           eapply owner_report_unencodable; eauto.
      * destruct (owner_report_without_owner py r v w Hv Ho) as [res E].
        exists res, []. rewrite E, app_nil_r, world_eta. reflexivity.
    + exists (Raise (match r with JObj _ => KeyError "value" | _ => TypeError end)), [].
      rewrite app_nil_r, world_eta.
      unfold owner_report. run_M.
      destruct r; simpl in *; try reflexivity. rewrite Hv. reflexivity.
  - exists (Ok tt), []. rewrite app_nil_r, world_eta. reflexivity.
Qed.

(** *** Both checks of an entry *)

Lemma check_account_fst net address network w :
  fst (check_account net address network w) = outcome (answer net w address network).
Proof. rewrite check_account_unfold. reflexivity. Qed.

Lemma answer_after_devnet net address w :
  answer net (snd (check_account net address "devnet" w)) address "mainnet-beta" =
  net (S (length (sent w))) (url_of "mainnet-beta") (payload_of address).
Proof.
  rewrite check_account_unfold. unfold answer. cbn [snd sent].
  rewrite length_snoc. reflexivity.
Qed.

(** When both checks return, the entry prints its three lines and hands
    the DevNet pair to the owner report. *)
Lemma entry_both_return net py name address w b1 r1 b2 r2 :
  fst (check_account net address "devnet" w) = Ok (b1, r1) ->
  fst (check_account net address "mainnet-beta"
         (snd (check_account net address "devnet" w))) = Ok (b2, r2) ->
  entry net py name address w =
  owner_report py b1 r1
    (World (sent w ++ requests_of [(name, address)])
           (stdout w ++ [header name address; devnet_line b1; mainnet_line b2])).
Proof.
  rewrite !check_account_fst, answer_after_devnet. intros H1 H2.
  rewrite entry_run. cbv zeta. rewrite H1, H2. reflexivity.
Qed.




(** C5 (amended): for the entry of the wrapped-SOL mint, the line "Owned
    by SPL Token Program" is produced by the DevNet outcome: if the DevNet
    check returns Exists with owner equal to the Token Program address
    and the MainnetBeta check returns, whatever its outcome, the block is
    the header, the two existence lines, the owner and that line. *)
Theorem sol_owned_line_from_devnet net py name w r1 v b2 r2 :
  fst (check_account net SOL_MINT "devnet" w) = Ok (true, r1) ->
  field "value" r1 = Some v ->
  field "owner" v = Some (JStr TOKEN_PROGRAM) ->
  fst (check_account net SOL_MINT "mainnet-beta"
         (snd (check_account net SOL_MINT "devnet" w))) = Ok (b2, r2) ->
  stdout (snd (entry net py name SOL_MINT w)) =
  stdout w ++
  [header name SOL_MINT; "   DevNet: ✅ EXISTS"; mainnet_line b2;
   "   Owner: TokenkegQfeZyiNwAJbNbGKPFXCWuBvf9Ss623VQ5DA";
   "   ✅ Owned by SPL Token Program"].
Proof.
  intros H1 Hv Ho H2.
  rewrite (entry_both_return _ _ _ _ _ _ _ _ _ H1 H2).
  rewrite (owner_report_with_owner _ _ _ _ _ Hv Ho eq_refl). cbn [snd stdout].
  rewrite <- app_assoc. reflexivity.
Qed.

Lemma sol_owned_line_from_devnet_sample :
  stdout (snd (entry (net_by_url (Response (Some (body_exists TOKEN_PROGRAM)))
                                 (Response (Some body_rpc_error)))
                     repr_any "SOL" SOL_MINT initial)) =
  [header "SOL" SOL_MINT; "   DevNet: ✅ EXISTS"; "   Mainnet: ❌ NOT FOUND";
   "   Owner: TokenkegQfeZyiNwAJbNbGKPFXCWuBvf9Ss623VQ5DA";
   "   ✅ Owned by SPL Token Program"].
Proof.
  exact (sol_owned_line_from_devnet
    (net_by_url (Response (Some (body_exists TOKEN_PROGRAM)))
                (Response (Some body_rpc_error)))
    repr_any "SOL" initial
    (JObj {[ "context" := JObj {[ "slot" := JInt 1 ]};
             "value" := JObj {[ "owner" := JStr TOKEN_PROGRAM;
                                "lamports" := JInt 1461600;
                                "executable" := JBool false ]} ]})
    (JObj {[ "owner" := JStr TOKEN_PROGRAM;
             "lamports" := JInt 1461600;
             "executable" := JBool false ]})
    false
    (JObj {[ "code" := JInt (-32602); "message" := JStr "Invalid param: Invalid" ]})
    eq_refl eq_refl eq_refl eq_refl).
Defined.

(** C5 (as stated) fails: with the wrapped-SOL mint found on MainnetBeta
    and owned by the Token Program, but absent on DevNet, the run
    completes and the report has no "Owned by SPL Token Program" line. *)
Lemma sol_mainnet_owner_not_reported :
  (exists r v,
      fst (check_account (net_by_url (Response (Some body_not_found))
                                     (Response (Some (body_exists TOKEN_PROGRAM))))
             SOL_MINT "mainnet-beta"
             (snd (check_account (net_by_url (Response (Some body_not_found))
                                             (Response (Some (body_exists TOKEN_PROGRAM))))
                     SOL_MINT "devnet" initial))) = Ok (true, r) /\
      field "value" r = Some v /\
      field "owner" v = Some (JStr TOKEN_PROGRAM)) /\
  entry (net_by_url (Response (Some body_not_found))
                    (Response (Some (body_exists TOKEN_PROGRAM))))
        repr_any "SOL" SOL_MINT initial =
  (Ok tt,
   World (requests_of [("SOL", SOL_MINT)])
         [header "SOL" SOL_MINT; "   DevNet: ❌ NOT FOUND"; "   Mainnet: ✅ EXISTS"]).
Proof.
  split.
  - eexists _, _. split; [reflexivity|]. split; reflexivity.
  - reflexivity.
Qed.

(** *** The guard of the owner report *)

Lemma owner_report_outcome py r v w :
  field "value" r = Some v ->
  fst (owner_report py true r w) =
  if owner_lookup_raises v then Raise TypeError else owner_print_outcome v.
Proof.
  intros Hv. unfold owner_print_outcome.
  destruct (field "owner" v) as [o|] eqn:Ho.
  - assert (owner_lookup_raises v = false) as ->.
    { destruct v; simpl in Ho; try discriminate.
      unfold owner_lookup_raises. apply andb_false_r. }
    destruct (encodable o) eqn:Henc.
    + rewrite (owner_report_with_owner _ _ _ _ _ Hv Ho Henc). cbn [fst].
      destruct o; try reflexivity; discriminate.
    + rewrite (owner_report_unencodable _ _ _ _ _ Hv Ho Henc). cbn [fst].
      destruct o; try discriminate. reflexivity.
  - apply getitem_Ok in Hv.
    unfold owner_report, owner_lookup_raises. run_M. rewrite Hv.
    destruct (Py.truthy v) eqn:Ht; [|reflexivity].
    destruct v as [| | | |s|s|l|m]; cbn [Py.contains andb fst]; try reflexivity.
    + destruct (Py.str_in "owner" s); reflexivity.
    + destruct (Py.str_in "owner" s); reflexivity.
    + destruct (existsb _ l); reflexivity.
    + simpl in Ho. rewrite bool_decide_eq_false_2; [reflexivity|].
      rewrite Ho. intros [x Hx]. discriminate.
Qed.




(** *** What the report can and cannot tell apart *)

Lemma absent_outcome a : absent a -> exists x, outcome a = Ok (false, x).
Proof.
  intros [(m & e & -> & He) | (data & r & -> & Hno & Hr & Hv)]; cbn [outcome].
  - exists e. apply interpret_error. exact He.
  - exists r. apply interpret_result; [assumption|]. split; [assumption|].
    exists JNull. split; [assumption|reflexivity].
Qed.

Lemma lookup_after {A} (l k : list A) (i : nat) :
  (l ++ k) !! (length l + i) = k !! i.
Proof.
  rewrite lookup_app_r by lia. f_equal. lia.
Qed.

(** C3: the report does not tell an RPC error from an absent account.
    Take two runs of one entry from the same world whose DevNet replies
    are alike (equal, or each an [error] body or a null [result.value])
    and whose Mainnet replies are alike: the two runs end in the same
    result and the same output, and wherever the reply is an [error] body
    or a null [result.value] the existence line reads "NOT FOUND". *)
Theorem report_conflates_error_and_absence net1 net2 py name address w :
  alike (answer net1 w address "devnet") (answer net2 w address "devnet") ->
  alike (answer net1 (snd (check_account net1 address "devnet" w)) address "mainnet-beta")
        (answer net2 (snd (check_account net2 address "devnet" w)) address "mainnet-beta") ->
  entry net1 py name address w = entry net2 py name address w /\
  (absent (answer net1 w address "devnet") ->
   stdout (snd (entry net1 py name address w)) !! (length (stdout w) + 1) =
   Some "   DevNet: ❌ NOT FOUND") /\
  (absent (answer net1 (snd (check_account net1 address "devnet" w)) address "mainnet-beta") ->
   (exists b r, fst (check_account net1 address "devnet" w) = Ok (b, r)) ->
   stdout (snd (entry net1 py name address w)) !! (length (stdout w) + 2) =
   Some "   Mainnet: ❌ NOT FOUND").
Proof.
  rewrite !answer_after_devnet, check_account_fst, !entry_run. cbv zeta.
  intros Hd Hm. split; [|split].
  - destruct Hd as [<- | [A1 A2]].
    + destruct (outcome (answer net1 w address "devnet")) as [[b1 r1]|e]; [|reflexivity].
      destruct Hm as [<- | [B1 B2]]; [reflexivity|].
      apply absent_outcome in B1 as [x1 ->], B2 as [x2 ->]. reflexivity.
    + apply absent_outcome in A1 as [x1 ->], A2 as [x2 ->].
      destruct Hm as [<- | [B1 B2]].
      * destruct (outcome _) as [[b2 r2]|e]; reflexivity.
      * apply absent_outcome in B1 as [y1 ->], B2 as [y2 ->]. reflexivity.
  - intros A1. apply absent_outcome in A1 as [x1 ->].
    destruct (outcome _) as [[b2 r2]|e]; cbn [snd stdout];
      rewrite ?owner_report_skip; cbn [snd stdout]; rewrite lookup_after; reflexivity.
  - intros B1 (b & r & ->). apply absent_outcome in B1 as [y1 ->].
    destruct (owner_report_frame py b r
                (World (sent w ++ [(url_of "devnet", payload_of address);
                                   (url_of "mainnet-beta", payload_of address)])
                       (stdout w ++ [header name address; devnet_line b; mainnet_line false])))
      as (res & lines & ->).
    cbn [snd stdout]. rewrite <- app_assoc, lookup_after. reflexivity.
Qed.

Lemma report_conflates_error_and_absence_sample :
  entry (net_by_url (Response (Some body_rpc_error)) (Response (Some body_not_found)))
        repr_any "SOL" SOL_MINT initial =
  entry (net_by_url (Response (Some body_not_found)) (Response (Some body_not_found)))
        repr_any "SOL" SOL_MINT initial.
Proof.
  refine (proj1 (report_conflates_error_and_absence
    (net_by_url (Response (Some body_rpc_error)) (Response (Some body_not_found)))
    (net_by_url (Response (Some body_not_found)) (Response (Some body_not_found)))
    repr_any "SOL" SOL_MINT initial _ _)).
  - right. split.
    + left. eexists _, _. split; reflexivity.
    + right. eexists _, _. repeat split; reflexivity.
  - left. reflexivity.
Defined.

(** C7: the label plays no part.  For two entries with the same address,
    run from any two worlds against endpoints that give the same replies
    for that address, both checks return the same outcome, the two
    entries end in the same result, and their report blocks are the same
    lines after the header (the existence lines and the owner lines). *)
Theorem same_address_same_report net net' py name name' address w w' :
  answer net w address "devnet" = answer net' w' address "devnet" ->
  answer net (snd (check_account net address "devnet" w)) address "mainnet-beta" =
  answer net' (snd (check_account net' address "devnet" w')) address "mainnet-beta" ->
  fst (check_account net address "devnet" w) =
  fst (check_account net' address "devnet" w') /\
  fst (check_account net address "mainnet-beta" (snd (check_account net address "devnet" w))) =
  fst (check_account net' address "mainnet-beta" (snd (check_account net' address "devnet" w'))) /\
  fst (entry net py name address w) = fst (entry net' py name' address w') /\
  exists lines,
    stdout (snd (entry net py name address w)) =
      stdout w ++ header name address :: lines /\
    stdout (snd (entry net' py name' address w')) =
      stdout w' ++ header name' address :: lines.
Proof.
  intros Hd Hm. rewrite !check_account_fst, Hd, Hm.
  split; [reflexivity|]. split; [reflexivity|].
  rewrite !answer_after_devnet in Hm.
  rewrite !entry_run. cbv zeta. rewrite Hd, Hm.
  destruct (outcome (answer net' w' address "devnet")) as [[b1 r1]|e].
  - destruct (outcome _) as [[b2 r2]|e].
    + destruct b1.
      * destruct (field "value" r1) as [v|] eqn:Hv.
        -- destruct (field "owner" v) as [o|] eqn:Ho.
           ++ destruct (encodable o) eqn:Henc.
              ** rewrite !(owner_report_with_owner _ _ _ _ _ Hv Ho Henc).
                 cbn [fst snd stdout].
                 split; [reflexivity|]. eexists.
                 rewrite <- !app_assoc. split; reflexivity.
              ** rewrite !(owner_report_unencodable _ _ _ _ _ Hv Ho Henc).
                 cbn [fst snd stdout].
                 split; [reflexivity|]. eexists. split; reflexivity.
           ++ pose proof (owner_report_outcome py r1 v) as Ho'.
              split.
              ** rewrite !Ho' by assumption. reflexivity.
              ** destruct (owner_report_without_owner py r1 v
                   (World (sent w ++ [(url_of "devnet", payload_of address);
                                      (url_of "mainnet-beta", payload_of address)])
                          (stdout w ++ [header name address; devnet_line true; mainnet_line b2]))
                   Hv Ho) as [res1 ->].
                 destruct (owner_report_without_owner py r1 v
                   (World (sent w' ++ [(url_of "devnet", payload_of address);
                                       (url_of "mainnet-beta", payload_of address)])
                          (stdout w' ++ [header name' address; devnet_line true; mainnet_line b2]))
                   Hv Ho) as [res2 ->].
                 cbn [snd stdout]. eexists. split; reflexivity.
        -- assert (forall u, owner_report py true r1 u =
                     (Raise (match r1 with JObj _ => KeyError "value" | _ => TypeError end), u))
             as E.
           { intros u. unfold owner_report. run_M.
             destruct r1; simpl in *; try reflexivity. rewrite Hv. reflexivity. }
           rewrite !E. cbn [fst snd stdout].
           split; [reflexivity|]. eexists. split; reflexivity.
      * rewrite !owner_report_skip. cbn [fst snd stdout].
        split; [reflexivity|]. eexists. split; reflexivity.
    + cbn [fst snd stdout]. split; [reflexivity|]. eexists. split; reflexivity.
  - cbn [fst snd stdout]. split; [reflexivity|]. eexists. split; reflexivity.
Qed.

Lemma same_address_same_report_sample :
  fst (entry (net_by_url (Response (Some (body_exists TOKEN_PROGRAM)))
                         (Response (Some body_not_found)))
             repr_any "USDC (current)" "4k3Dyjzvzp8eMZWUXbBCjEvwSkkk59S5iCNLY3QrkX6R" initial) =
  fst (entry (net_by_url (Response (Some (body_exists TOKEN_PROGRAM)))
                         (Response (Some body_not_found)))
             repr_any "RAY" "4k3Dyjzvzp8eMZWUXbBCjEvwSkkk59S5iCNLY3QrkX6R"
             (snd (entry (net_by_url (Response (Some (body_exists TOKEN_PROGRAM)))
                                     (Response (Some body_not_found)))
                         repr_any "USDC (current)"
                         "4k3Dyjzvzp8eMZWUXbBCjEvwSkkk59S5iCNLY3QrkX6R" initial))).
Proof.
  exact (proj1 (proj2 (proj2 (same_address_same_report
    (net_by_url (Response (Some (body_exists TOKEN_PROGRAM))) (Response (Some body_not_found)))
    (net_by_url (Response (Some (body_exists TOKEN_PROGRAM))) (Response (Some body_not_found)))
    repr_any "USDC (current)" "RAY" "4k3Dyjzvzp8eMZWUXbBCjEvwSkkk59S5iCNLY3QrkX6R"
    initial _ eq_refl eq_refl)))).
Defined.

(** ** The whole run *)

Lemma malformed_outcome a : malformed a -> exists e, outcome a = Raise e.
Proof.
  intros [-> | (data & -> & Hno & Hres)]; cbn [outcome]; [eauto|].
  destruct (interpret data) as [[b r]|e] eqn:Hi; [|eauto].
  apply interpret_result in Hi as [Hr (v & Hv & _)]; [|assumption].
  apply Hres in Hr. congruence.
Qed.

Lemma well_shaped_outcome a :
  well_shaped a ->
  exists b r, outcome a = Ok (b, r) /\
              (b = true -> exists m, field "value" r = Some (JObj m)).
Proof.
  intros (data & -> & Hs). cbn [outcome].
  destruct (field "error" data) as [e|] eqn:He.
  - exists false, e. split; [apply interpret_error; assumption|discriminate].
  - destruct Hs as [[x Hx] | (r & v & Hr & Hv & Hshape)]; [congruence|].
    exists (Py.is_not_none v), r. split.
    + apply interpret_result; eauto.
    + destruct Hshape as [-> | [m ->]]; cbn; [intros; discriminate|eauto].
Qed.

Lemma owner_report_fst py b r w w' :
  fst (owner_report py b r w) = fst (owner_report py b r w').
Proof.
  destruct b; [|reflexivity].
  destruct (field "value" r) as [v|] eqn:Hv.
  - rewrite !(owner_report_outcome _ _ _ _ Hv). reflexivity.
  - unfold owner_report. run_M.
    destruct r; simpl in *; try reflexivity. rewrite Hv. reflexivity.
Qed.

Lemma owner_report_fst_py py py' b r w :
  fst (owner_report py b r w) = fst (owner_report py' b r w).
Proof.
  destruct b; [|reflexivity].
  destruct (field "value" r) as [v|] eqn:Hv.
  - rewrite !(owner_report_outcome _ _ _ _ Hv). reflexivity.
  - unfold owner_report. run_M.
    destruct r; simpl in *; try reflexivity. rewrite Hv. reflexivity.
Qed.

Lemma entry_trace net py name address w :
  exists res reqs lines,
    entry net py name address w =
      (res, World (sent w ++ reqs) (stdout w ++ header name address :: lines)) /\
    entry_end net address (length (sent w)) res reqs.
Proof.
  rewrite entry_run. cbv zeta. unfold answer.
  destruct (outcome (net (length (sent w)) _ _)) as [[b1 r1]|e] eqn:H1.
  - destruct (outcome (net (S (length (sent w))) _ _)) as [[b2 r2]|e] eqn:H2.
    + destruct (owner_report_frame py b1 r1
        (World (sent w ++ [(url_of "devnet", payload_of address);
                           (url_of "mainnet-beta", payload_of address)])
               (stdout w ++ [header name address; devnet_line b1; mainnet_line b2])))
        as (res & lines & E).
      exists res, (requests_of [(name, address)]), ([devnet_line b1; mainnet_line b2] ++ lines).
      split.
      * rewrite E. cbn [sent stdout]. rewrite <- app_assoc. reflexivity.
      * eapply end_report; eauto.
        intros py' w'. rewrite (owner_report_fst_py py' py).
        match type of E with
        | owner_report _ _ _ ?W = _ =>
            transitivity (fst (owner_report py b1 r1 W));
            [apply owner_report_fst | rewrite E; reflexivity]
        end.
    + exists (Raise e), (requests_of [(name, address)]), [devnet_line b1].
      split; [reflexivity|]. eapply end_mainnet; eauto.
  - exists (Raise e), [(url_of "devnet", payload_of address)], [].
    split; [reflexivity|]. apply end_devnet. assumption.
Qed.

Lemma for_each_app {A} (l1 l2 : list A) (body : A -> M unit) w :
  for_each (l1 ++ l2) body w =
  match for_each l1 body w with
  | (Ok _, w1) => for_each l2 body w1
  | (Raise e, w1) => (Raise e, w1)
  end.
Proof.
  revert w. induction l1 as [|x l1 IH]; intros w; [reflexivity|].
  cbn [app for_each]. run_M.
  destruct (body x w) as [[u|e] w1]; [apply IH|reflexivity].
Qed.

Lemma loop_cons net py name address table w :
  for_each ((name, address) :: table) (fun '(n, a) => entry net py n a) w =
  match entry net py name address w with
  | (Ok _, w1) => for_each table (fun '(n, a) => entry net py n a) w1
  | (Raise e, w1) => (Raise e, w1)
  end.
Proof. reflexivity. Qed.

Lemma main_over_unfold net py table w :
  main_over net py table w =
  for_each table (fun '(n, a) => entry net py n a)
    (World (sent w)
           (stdout w ++ ["🔍 VERIFICACIÓN DE TOKENS EN DEVNET"; Py.str_mul "=" 50])).
Proof.
  unfold main_over. run_M. cbn [sent stdout]. rewrite <- app_assoc. reflexivity.
Qed.

(** Requests and output are only ever appended to. *)
Lemma loop_extends net py table w :
  exists reqs lines,
    snd (for_each table (fun '(n, a) => entry net py n a) w) =
    World (sent w ++ reqs) (stdout w ++ lines).
Proof.
  revert w. induction table as [|[name address] table IH]; intros w.
  - exists [], []. rewrite !app_nil_r. symmetry. apply world_eta.
  - rewrite loop_cons.
    destruct (entry_trace net py name address w) as (res & reqs & lines & -> & _).
    destruct res as [u|e].
    + destruct (IH (World (sent w ++ reqs) (stdout w ++ header name address :: lines)))
        as (reqs' & lines' & ->).
      cbn [sent stdout]. rewrite <- !app_assoc. eauto.
    + cbn [snd]. eauto.
Qed.

(** Where position [k] falls in a log that continues [l] with the two
    requests of an entry. *)
Lemma lookup_entry_requests {A} (l more : list A) (x y : A) (k : nat) (z : A) :
  length l <= k ->
  (l ++ x :: y :: more) !! k = Some z ->
  (k = length l /\ z = x) \/ (k = S (length l) /\ z = y) \/
  (S (S (length l)) <= k /\ k < length (l ++ x :: y :: more)).
Proof.
  intros Hk Hz. pose proof (lookup_lt_Some _ _ _ Hz) as Hlt. revert Hz.
  replace k with (length l + (k - length l)) at 1 by lia.
  rewrite lookup_after.
  destruct (k - length l) as [|[|i]] eqn:E; cbn.
  - intros [= <-]. left. split; [lia|reflexivity].
  - intros [= <-]. right. left. split; [lia|reflexivity].
  - intros _. right. right. split; [lia|assumption].
Qed.

Lemma loop_abort net py table w k url p :
  length (sent w) <= k ->
  sent (snd (for_each table (fun '(n, a) => entry net py n a) w)) !! k = Some (url, p) ->
  malformed (net k url p) ->
  (exists e, fst (for_each table (fun '(n, a) => entry net py n a) w) = Raise e) /\
  length (sent (snd (for_each table (fun '(n, a) => entry net py n a) w))) = S k.
Proof.
  revert w. induction table as [|[name address] table IH]; intros w Hk Hlook Hbad.
  - cbn in Hlook. apply lookup_lt_Some in Hlook. lia.
  - destruct (malformed_outcome _ Hbad) as [e0 Hraise].
    rewrite loop_cons in *.
    destruct (entry_trace net py name address w) as (res & reqs & lines & E & Hend).
    rewrite E in *.
    destruct Hend as [e H1 | b1 r1 e H1 H2 | b1 r1 b2 r2 res H1 H2 Hres].
    + cbn [fst snd sent] in *. split; [eauto|].
      apply lookup_lt_Some in Hlook. rewrite length_snoc in *. lia.
    + cbn [fst snd sent requests_of flat_map app] in *.
      split; [eauto|].
      apply lookup_entry_requests in Hlook as [[-> [= -> ->]] | [[-> _] | [Hge Hlt]]];
        try assumption.
      * congruence.
      * rewrite length_app. cbn. lia.
      * rewrite length_app in *. cbn in *. lia.
    + cbn [requests_of flat_map app] in *.
      destruct res as [u|e].
      * destruct (loop_extends net py table
                    (World (sent w ++ [(url_of "devnet", payload_of address);
                                       (url_of "mainnet-beta", payload_of address)])
                           (stdout w ++ header name address :: lines)))
          as (reqs' & lines' & Hext).
        assert (S (S (length (sent w))) <= k) as Hge.
        { rewrite Hext in Hlook. cbn [sent] in Hlook.
          rewrite <- app_assoc in Hlook. cbn [app] in Hlook.
          apply lookup_entry_requests in Hlook
            as [[-> [= -> ->]] | [[-> [= -> ->]] | [Hge _]]];
            try assumption; congruence. }
        apply IH; [|assumption|assumption].
        cbn [sent]. rewrite length_app. cbn. lia.
      * exfalso. cbn [snd sent] in Hlook.
        apply lookup_entry_requests in Hlook
          as [[-> [= -> ->]] | [[-> [= -> ->]] | [Hge Hlt]]];
          try assumption; try congruence.
        rewrite length_app in Hlt. cbn in Hlt. lia.
Qed.

Lemma main_over_prefix net py l1 l2 w :
  stdout (snd (main_over net py l1 w)) `prefix_of`
  stdout (snd (main_over net py (l1 ++ l2) w)).
Proof.
  rewrite !main_over_unfold, for_each_app.
  destruct (for_each l1 _ _) as [[u|e] w1]; cbn [snd]; [|reflexivity].
  destruct (loop_extends net py l2 w1) as (reqs & lines & ->).
  cbn [stdout]. apply prefix_app_r. reflexivity.
Qed.

Lemma outcome_true_result a r :
  outcome a = Ok (true, r) ->
  exists data v,
    a = Response (Some data) /\ field "result" data = Some r /\
    field "value" r = Some v.
Proof.
  destruct a as [|[data|]| |]; try discriminate. cbn [outcome]. intros Hi.
  assert (field "error" data = None) as Hno.
  { destruct (field "error" data) as [e|] eqn:He; [|reflexivity].
    rewrite (interpret_error _ _ He) in Hi. discriminate. }
  apply interpret_result in Hi as [Hr (v & Hv & _)]; [|assumption].
  eauto.
Qed.

Lemma loop_complete net py table w :
  (forall k url p,
      length (sent w) <= k < length (sent w) + 2 * length table ->
      well_shaped (net k url p)) ->
  (forall k p,
      length (sent w) <= k < length (sent w) + 2 * length table ->
      owner_encodable (net k "https://api.devnet.solana.com" p)) ->
  exists lines,
    for_each table (fun '(n, a) => entry net py n a) w =
      (Ok tt, World (sent w ++ requests_of table) (stdout w ++ lines)) /\
    Forall (fun '(name, address) => header name address ∈ lines) table.
Proof.
  revert w. induction table as [|[name address] table IH]; intros w Hnet Henc.
  - exists []. rewrite !app_nil_r, world_eta. split; [reflexivity|constructor].
  - rewrite loop_cons.
    destruct (entry_trace net py name address w) as (res & reqs & lines & -> & Hend).
    cbn [length] in Hnet, Henc.
    destruct (well_shaped_outcome (net (length (sent w)) (url_of "devnet") (payload_of address)))
      as (b1 & r1 & H1 & Hobj); [apply Hnet; lia|].
    destruct (well_shaped_outcome
                (net (S (length (sent w))) (url_of "mainnet-beta") (payload_of address)))
      as (b2 & r2 & H2 & _); [apply Hnet; lia|].
    destruct Hend as [e H1' | b1' r1' e H1' H2' | b1' r1' b2' r2' res H1' H2' Hres];
      try congruence.
    assert (res = Ok tt) as ->.
    { rewrite <- (Hres py w). rewrite H1 in H1'. injection H1' as <- <-.
      destruct b1; [|reflexivity].
      destruct (Hobj eq_refl) as [m Hv].
      rewrite (owner_report_outcome _ _ _ _ Hv).
      unfold owner_lookup_raises. rewrite andb_false_r.
      destruct (outcome_true_result _ _ H1) as (data & v' & Ha & Hr & _).
      unfold owner_print_outcome.
      destruct (field "owner" (JObj m)) as [o|] eqn:Ho; [|reflexivity].
      assert (encodable o = true) as Ho'.
      { eapply (Henc (length (sent w)) (payload_of address)); eauto. lia. }
      destruct o; try reflexivity; discriminate. }
    destruct (IH (World (sent w ++ [(url_of "devnet", payload_of address);
                                    (url_of "mainnet-beta", payload_of address)])
                        (stdout w ++ header name address :: lines)))
      as (lines' & -> & Hall).
    { intros k url p Hk. apply Hnet. cbn [sent] in Hk.
      rewrite length_app in Hk. cbn in Hk. lia. }
    { intros k p Hk. apply Henc. cbn [sent] in Hk.
      rewrite length_app in Hk. cbn in Hk. lia. }
    exists (header name address :: lines ++ lines'). split.
    + cbn [sent stdout requests_of flat_map]. rewrite <- !app_assoc. reflexivity.
    + constructor.
      * left.
      * eapply Forall_impl; [exact Hall|].
        intros [n a] Hin. right. apply elem_of_app. right. exact Hin.
Qed.

(** C8: a reply whose body is not JSON, or parses to a value with neither
    an [error] member nor a [result] member holding a [value] member,
    makes [check_account] raise right after the request; in a run of the
    script the exception reaches the top level, the exit status is not 0,
    the request that met the reply is the last one sent, and everything
    the run printed for the entries before it is still the beginning of
    the output. *)
Theorem malformed_reply_aborts_run net py :
  (forall address network w,
      malformed (answer net w address network) ->
      exists e,
        check_account net address network w =
        (Raise e, World (sent w ++ [(url_of network, payload_of address)]) (stdout w))) /\
  (forall k url p,
      sent (snd (main net py initial)) !! k = Some (url, p) ->
      malformed (net k url p) ->
      (exists e, fst (main net py initial) = Raise e) /\
      exit_code (fst (main net py initial)) <> 0%Z /\
      length (sent (snd (main net py initial))) = S k /\
      stdout (snd (main_over net py (take (k `div` 2) tokens) initial))
        `prefix_of` stdout (snd (main net py initial))).
Proof.
  split.
  - intros address network w Hbad.
    apply malformed_outcome in Hbad as [e He].
    exists e. rewrite check_account_unfold, He. reflexivity.
  - intros k url p Hlook Hbad.
    assert ((exists e, fst (main net py initial) = Raise e) /\
            length (sent (snd (main net py initial))) = S k) as [[e He] Hlen].
    { unfold main in *. rewrite main_over_unfold in *.
      eapply loop_abort; [|exact Hlook|exact Hbad]. cbn. lia. }
    split; [eauto|]. split; [rewrite He; discriminate|]. split; [assumption|].
    unfold main. rewrite <- (take_drop (k `div` 2) tokens) at 2.
    apply main_over_prefix.
Qed.

Lemma malformed_reply_aborts_run_sample :
  length (sent (snd (main (net_by_url (Response (Some body_not_found)) (Response None))
                          repr_any initial))) = 2.
Proof.
  exact (proj1 (proj2 (proj2 (proj2
    (malformed_reply_aborts_run
       (net_by_url (Response (Some body_not_found)) (Response None)) repr_any)
    1 _ _ eq_refl (or_introl eq_refl))))).
Defined.

(** C9 (amended): when every request of the run gets a reply of the
    expected shape (an [error] member, or a [result] whose [value] is
    null or an object) and no DevNet reply has an owner that is a str with
    a lone surrogate, the script runs to its end with exit status 0 after
    sending the ten requests of the five entries in table order and
    printing the header of each entry, whatever the mix of found, absent
    and error replies. *)
Theorem well_shaped_run_exits_zero net py :
  (forall k url p, k < 10 -> well_shaped (net k url p)) ->
  (forall k p, k < 10 -> owner_encodable (net k "https://api.devnet.solana.com" p)) ->
  fst (main net py initial) = Ok tt /\
  exit_code (fst (main net py initial)) = 0%Z /\
  sent (snd (main net py initial)) = requests_of tokens /\
  length (requests_of tokens) = 10 /\
  Forall (fun '(name, address) =>
            header name address ∈ stdout (snd (main net py initial))) tokens.
Proof.
  intros Hnet Henc. unfold main. rewrite main_over_unfold.
  destruct (loop_complete net py tokens
              (World (sent initial)
                     (stdout initial ++
                      ["🔍 VERIFICACIÓN DE TOKENS EN DEVNET"; Py.str_mul "=" 50])))
    as (lines & -> & Hall).
  { intros k url p Hk. apply Hnet. cbn in Hk. lia. }
  { intros k p Hk. apply Henc. cbn in Hk. lia. }
  cbn [fst snd sent stdout exit_code initial app].
  repeat split.
  eapply Forall_impl; [exact Hall|].
  intros [n a] Hin. do 2 right. exact Hin.
Qed.

Lemma well_shaped_run_exits_zero_sample :
  exit_code (fst (main (net_by_url (Response (Some (body_exists TOKEN_PROGRAM)))
                                   (Response (Some body_rpc_error)))
                       repr_any initial)) = 0%Z.
Proof.
  refine (proj1 (proj2 (well_shaped_run_exits_zero
    (net_by_url (Response (Some (body_exists TOKEN_PROGRAM)))
                (Response (Some body_rpc_error)))
    repr_any _ _))).
  - intros k url p _. unfold net_by_url.
    destruct (String.eqb url "https://api.devnet.solana.com").
    + eexists. split; [reflexivity|]. right.
      eexists _, _. split; [reflexivity|]. split; [reflexivity|]. right. eauto.
    + eexists. split; [reflexivity|]. left. eexists. reflexivity.
  - intros k p _ data r v o Ha Hr Hv Ho.
    vm_compute in Ha. injection Ha as <-.
    vm_compute in Hr. injection Hr as <-.
    vm_compute in Hv. injection Hv as <-.
    vm_compute in Ho. injection Ho as <-.
    reflexivity.
Defined.

(** C9 (as stated) fails: every reply below has the expected shape, the
    DevNet account's [owner] is the str that ["\ud800"] parses to, and the
    owner [print] of the first entry raises UnicodeEncodeError: the run
    ends with exit status 1 after two requests. *)
Lemma well_shaped_run_exits_one_on_surrogate_owner :
  (forall k url p,
      well_shaped (net_by_url (Response (Some body_owner_surrogate))
                              (Response (Some body_not_found)) k url p)) /\
  main (net_by_url (Response (Some body_owner_surrogate))
                   (Response (Some body_not_found)))
       repr_any initial =
  (Raise UnicodeEncodeError,
   World (requests_of [("USDC (current)", "4k3Dyjzvzp8eMZWUXbBCjEvwSkkk59S5iCNLY3QrkX6R")])
     ["🔍 VERIFICACIÓN DE TOKENS EN DEVNET";
      "==================================================";
      header "USDC (current)" "4k3Dyjzvzp8eMZWUXbBCjEvwSkkk59S5iCNLY3QrkX6R";
      "   DevNet: ✅ EXISTS";
      "   Mainnet: ❌ NOT FOUND"]) /\
  exit_code (fst (main (net_by_url (Response (Some body_owner_surrogate))
                                   (Response (Some body_not_found)))
                       repr_any initial)) = 1%Z.
Proof.
  split; [|split; reflexivity].
  intros k url p. unfold net_by_url.
  destruct (String.eqb url "https://api.devnet.solana.com").
  - eexists. split; [reflexivity|]. right.
    eexists _, _. split; [reflexivity|]. split; [reflexivity|]. right. eauto.
  - eexists. split; [reflexivity|]. right.
    eexists _, _. split; [reflexivity|]. split; [reflexivity|]. left. reflexivity.
Qed.

(** ** Further properties of the checker *)

(** The checker as a decision table over the reply. *)
Lemma outcome_table a :
  outcome a =
  match a with
  | NoResponse => Raise RequestException
  | Response None => Raise JSONDecodeError
  | Response (Some (JObj m)) =>
      match m !! "error" with
      | Some e => Ok (false, e)
      | None =>
          match m !! "result" with
          | None => Raise (KeyError "result")
          | Some (JObj r) =>
              match r !! "value" with
              | Some v => Ok (Py.is_not_none v, JObj r)
              | None => Raise (KeyError "value")
              end
          | Some _ => Raise TypeError
          end
      end
  | Response (Some _) => Raise TypeError
  | IntegerTooLong => Raise ValueError
  | NestedTooDeep => Raise RecursionError
  end.
Proof.
  destruct a as [|[data|]| |]; try reflexivity.
  cbn [outcome]. unfold interpret.
  destruct data as [| | | |s|s|l|m]; try reflexivity.
  - cbn [Py.contains]. destruct (Py.str_in "error" s); reflexivity.
  - cbn [Py.contains]. destruct (Py.str_in "error" s); reflexivity.
  - cbn [Py.contains]. destruct (existsb _ l); reflexivity.
  - rewrite contains_obj. cbn [Py.getitem].
    destruct (m !! "error") as [e|] eqn:He.
    + rewrite bool_decide_eq_true_2 by eauto. reflexivity.
    + rewrite bool_decide_eq_false_2 by (intros [x Hx]; discriminate).
      destruct (m !! "result") as [r|]; [|reflexivity].
      destruct r as [| | | | | | |r]; try reflexivity.
      cbn [Py.getitem]. destruct (r !! "value"); reflexivity.
Qed.

(** X2: what [check_account] returns or raises, read off the reply alone:
    RequestException when the request fails, JSONDecodeError when the body
    is not JSON, ValueError and RecursionError when [json.loads] gives up
    on an overlong integer or on too deep a nesting, TypeError when the
    body is not an object (also for a string or an array that contains
    "error"), the [error] member with flag false when there is one,
    KeyError for a missing [result] or [value], TypeError when [result]
    is not an object. *)
Theorem check_account_decision_table net address network w :
  fst (check_account net address network w) =
  match answer net w address network with
  | NoResponse => Raise RequestException
  | Response None => Raise JSONDecodeError
  | Response (Some (JObj m)) =>
      match m !! "error" with
      | Some e => Ok (false, e)
      | None =>
          match m !! "result" with
          | None => Raise (KeyError "result")
          | Some (JObj r) =>
              match r !! "value" with
              | Some v => Ok (Py.is_not_none v, JObj r)
              | None => Raise (KeyError "value")
              end
          | Some _ => Raise TypeError
          end
      end
  | Response (Some _) => Raise TypeError
  | IntegerTooLong => Raise ValueError
  | NestedTooDeep => Raise RecursionError
  end.
Proof. rewrite check_account_fst. apply outcome_table. Qed.

(** X4: the selector is compared with "devnet" only: every other
    selector, such as "testnet" or "Devnet", sends the request to the
    MainnetBeta URL. *)
Theorem other_selector_targets_mainnet net address network w :
  network <> "devnet" ->
  sent (snd (check_account net address network w)) =
  sent w ++ [("https://api.mainnet-beta.solana.com", payload_of address)].
Proof.
  intros Hne. rewrite check_account_unfold. cbn [snd sent]. unfold url_of.
  destruct (String.eqb network "devnet") eqn:E; [|reflexivity].
  apply String.eqb_eq in E. contradiction.
Qed.

Lemma other_selector_targets_mainnet_sample :
  sent (snd (check_account (net_by_url NoResponse NoResponse) SOL_MINT "testnet" initial)) =
  [("https://api.mainnet-beta.solana.com", payload_of SOL_MINT)].
Proof.
  apply (other_selector_targets_mainnet
           (net_by_url NoResponse NoResponse) SOL_MINT "testnet" initial).
  discriminate.
Defined.

(** X9: [check_account] prints nothing and issues exactly one request,
    whether it returns or raises. *)
Theorem check_account_frame net address network w :
  stdout (snd (check_account net address network w)) = stdout w /\
  exists request,
    sent (snd (check_account net address network w)) = sent w ++ [request] /\
    Py.getitem (snd request) "params" =
      Ok (JArr [JStr address; JObj {[ "encoding" := JStr "base64" ]}]).
Proof.
  rewrite check_account_unfold. cbn [snd sent stdout]. split; [reflexivity|].
  eexists. split; reflexivity.
Qed.

(** X8: the address can be read back from the posted body, so two checks
    post the same body exactly when they are about the same address. *)
Theorem payload_determines_address address address' :
  payload_of address = payload_of address' <-> address = address'.
Proof.
  split; [|intros ->; reflexivity].
  intros H.
  assert (field "params" (payload_of address) = field "params" (payload_of address')) as E
    by (rewrite H; reflexivity).
  vm_compute in E. congruence.
Qed.

(** ** Further properties of the driver *)

Lemma outcome_raise a e : outcome a = Raise e -> run_exception e.
Proof.
  rewrite outcome_table. unfold run_exception.
  destruct a as [|[data|]| |]; try (intros [= <-]; tauto).
  destruct data as [| | | | | | |m]; try (intros [= <-]; tauto).
  destruct (m !! "error"); [discriminate|].
  destruct (m !! "result") as [r|]; [|intros [= <-]; tauto].
  destruct r as [| | | | | | |r]; try (intros [= <-]; tauto).
  destruct (r !! "value"); [discriminate|intros [= <-]; tauto].
Qed.

Lemma outcome_true_value a r :
  outcome a = Ok (true, r) -> exists v, field "value" r = Some v.
Proof.
  rewrite outcome_table.
  destruct a as [|[data|]| |]; try discriminate.
  destruct data as [| | | | | | |m]; try discriminate.
  destruct (m !! "error"); [discriminate|].
  destruct (m !! "result") as [r0|]; [|discriminate].
  destruct r0 as [| | | | | | |r0]; try discriminate.
  destruct (r0 !! "value") as [v|] eqn:Hv; [|discriminate].
  intros [= _ <-]. exists v. exact Hv.
Qed.

(** The owner report either leaves the world as it is or, for a truthy
    object with an [owner] member, adds the owner line and its verdict. *)
Lemma owner_report_cases py b r w :
  (exists res, owner_report py b r w = (res, w)) \/
  (b = true /\
   exists o,
     owner_report py b r w =
     (Ok tt,
      World (sent w)
            (stdout w ++
             ["   Owner: " +:+ format py o;
              if Py.eq_str o TOKEN_PROGRAM
              then "   ✅ Owned by SPL Token Program"
              else "   ⚠️  Different owner"]))).
Proof.
  destruct b; [|left; eexists; reflexivity].
  destruct (field "value" r) as [v|] eqn:Hv.
  - destruct (field "owner" v) as [o|] eqn:Ho.
    + destruct (encodable o) eqn:Henc.
      * right. split; [reflexivity|]. exists o.
        apply (owner_report_with_owner _ _ _ _ _ Hv Ho Henc).
      * left. eexists. apply (owner_report_unencodable _ _ _ _ _ Hv Ho Henc).
    + left. apply (owner_report_without_owner _ _ _ _ Hv Ho).
  - left. exists (Raise (match r with JObj _ => KeyError "value" | _ => TypeError end)).
    unfold owner_report. run_M.
    destruct r; simpl in *; try reflexivity. rewrite Hv. reflexivity.
Qed.

Lemma entry_rest net py name address w :
  exists lines,
    stdout (snd (entry net py name address w)) =
      stdout w ++ header name address :: lines /\
    block_rest py (fst (entry net py name address w)) lines.
Proof.
  rewrite entry_run. cbv zeta.
  destruct (outcome (answer net w address "devnet")) as [[b1 r1]|e].
  - destruct (outcome (net (S (length (sent w))) _ _)) as [[b2 r2]|e].
    + destruct (owner_report_cases py b1 r1
        (World (sent w ++ [(url_of "devnet", payload_of address);
                           (url_of "mainnet-beta", payload_of address)])
               (stdout w ++ [header name address; devnet_line b1; mainnet_line b2])))
        as [[res ->] | [-> [o ->]]]; cbn [fst snd stdout].
      * eexists. split; [reflexivity|]. constructor.
      * rewrite <- app_assoc. eexists. split; [reflexivity|]. constructor.
    + cbn [fst snd stdout]. eexists. split; [reflexivity|]. constructor.
  - cbn [fst snd stdout]. exists []. split; [reflexivity|]. constructor.
Qed.

(** X6: the block of an entry is its header followed by nothing (the
    DevNet check raised), the DevNet line (the Mainnet check raised), the
    two existence lines, or those two and the owner line with its verdict
    line; the owner line never comes without the verdict line, and only
    in an entry that returns. *)
Theorem entry_block_shape net py name address w :
  exists lines,
    stdout (snd (entry net py name address w)) =
      stdout w ++ header name address :: lines /\
    ((lines = [] /\ exists e, fst (entry net py name address w) = Raise e) \/
     (exists b1, lines = [devnet_line b1] /\
                 exists e, fst (entry net py name address w) = Raise e) \/
     (exists b1 b2, lines = [devnet_line b1; mainnet_line b2]) \/
     (exists b2 o,
         lines = [devnet_line true; mainnet_line b2;
                  "   Owner: " +:+ format py o;
                  if Py.eq_str o TOKEN_PROGRAM
                  then "   ✅ Owned by SPL Token Program"
                  else "   ⚠️  Different owner"] /\
         fst (entry net py name address w) = Ok tt)).
Proof.
  destruct (entry_rest net py name address w) as (lines & E & Hshape).
  exists lines. split; [exact E|].
  destruct Hshape as [e | b1 e | b1 b2 res | b2 o]; eauto 10.
Qed.

(** X5: a [result.value] that is not null but falsy (an empty object, 0,
    an empty string or array, false) counts as an existing account: the
    DevNet line reads EXISTS, the owner report is skipped without an
    exception, and the block ends after the Mainnet line. *)
Theorem falsy_value_exists_without_owner net py name address w r1 v b2 r2 :
  fst (check_account net address "devnet" w) = Ok (true, r1) ->
  field "value" r1 = Some v ->
  Py.truthy v = false ->
  fst (check_account net address "mainnet-beta"
         (snd (check_account net address "devnet" w))) = Ok (b2, r2) ->
  entry net py name address w =
  (Ok tt,
   World (sent w ++ requests_of [(name, address)])
         (stdout w ++ [header name address; "   DevNet: ✅ EXISTS"; mainnet_line b2])).
Proof.
  intros H1 Hv Ht H2.
  rewrite (entry_both_return _ _ _ _ _ _ _ _ _ H1 H2).
  apply getitem_Ok in Hv.
  unfold owner_report. run_M. rewrite Hv, Ht. reflexivity.
Qed.

Lemma falsy_value_exists_without_owner_sample :
  entry (net_by_url (Response (Some body_value_empty)) (Response (Some body_not_found)))
        repr_any "SOL" SOL_MINT initial =
  (Ok tt,
   World (requests_of [("SOL", SOL_MINT)])
         [header "SOL" SOL_MINT; "   DevNet: ✅ EXISTS"; "   Mainnet: ❌ NOT FOUND"]).
Proof.
  exact (falsy_value_exists_without_owner
    (net_by_url (Response (Some body_value_empty)) (Response (Some body_not_found)))
    repr_any "SOL" SOL_MINT initial
    (JObj {[ "value" := JObj ∅ ]}) (JObj ∅) false
    (JObj {[ "context" := JObj {[ "slot" := JInt 1 ]}; "value" := JNull ]})
    eq_refl eq_refl eq_refl eq_refl).
Defined.

(** ** Further properties of the whole run *)

Lemma lookup_last_request {A} (l : list A) (x z : A) (k : nat) :
  length l <= k -> (l ++ [x]) !! k = Some z -> k = length l /\ z = x.
Proof.
  intros Hk Hz. pose proof (lookup_lt_Some _ _ _ Hz) as Hlt.
  rewrite length_snoc in Hlt. assert (k = length l) as -> by lia.
  replace (length l) with (length l + 0) in Hz by lia.
  rewrite lookup_after in Hz. cbn in Hz. split; congruence.
Qed.

(** A request whose reply makes the checker raise is the last of the run,
    and its exception is the result of the loop. *)
Lemma loop_stops_at_raise net py table w k url p e0 :
  length (sent w) <= k ->
  sent (snd (for_each table (fun '(n, a) => entry net py n a) w)) !! k = Some (url, p) ->
  outcome (net k url p) = Raise e0 ->
  fst (for_each table (fun '(n, a) => entry net py n a) w) = Raise e0 /\
  length (sent (snd (for_each table (fun '(n, a) => entry net py n a) w))) = S k.
Proof.
  revert w. induction table as [|[name address] table IH]; intros w Hk Hlook Hraise.
  - cbn in Hlook. apply lookup_lt_Some in Hlook. lia.
  - rewrite loop_cons in *.
    destruct (entry_trace net py name address w) as (res & reqs & lines & E & Hend).
    rewrite E in *.
    destruct Hend as [e H1 | b1 r1 e H1 H2 | b1 r1 b2 r2 res H1 H2 Hres].
    + cbn [fst snd sent] in *.
      apply lookup_last_request in Hlook as [-> [= -> ->]]; [|assumption].
      rewrite length_snoc. split; congruence.
    + cbn [fst snd sent] in *.
      apply lookup_entry_requests in Hlook
        as [[-> [= -> ->]] | [[-> [= -> ->]] | [Hge Hlt]]]; try assumption.
      * congruence.
      * rewrite length_app. cbn. split; [congruence|lia].
      * rewrite length_app in Hlt. cbn in Hlt. lia.
    + destruct res as [u|e].
      * destruct (loop_extends net py table
                    (World (sent w ++ [(url_of "devnet", payload_of address);
                                       (url_of "mainnet-beta", payload_of address)])
                           (stdout w ++ header name address :: lines)))
          as (reqs' & lines' & Hext).
        assert (S (S (length (sent w))) <= k) as Hge.
        { rewrite Hext in Hlook. cbn [sent] in Hlook.
          rewrite <- app_assoc in Hlook. cbn [app] in Hlook.
          apply lookup_entry_requests in Hlook
            as [[-> [= -> ->]] | [[-> [= -> ->]] | [Hge _]]];
            try assumption; congruence. }
        apply IH; [|assumption|assumption].
        cbn [sent]. rewrite length_app. cbn. lia.
      * exfalso. cbn [snd sent] in Hlook.
        apply lookup_entry_requests in Hlook
          as [[-> [= -> ->]] | [[-> [= -> ->]] | [Hge Hlt]]];
          try assumption; try congruence.
        rewrite length_app in Hlt. cbn in Hlt. lia.
Qed.

(** X1: a request that fails in transport ends the run: [main] ends with
    the RequestException raised by [requests.post], the exit status is 1
    and no request is sent after the failed one. *)
Theorem transport_failure_aborts_run net py k url p :
  sent (snd (main net py initial)) !! k = Some (url, p) ->
  net k url p = NoResponse ->
  fst (main net py initial) = Raise RequestException /\
  exit_code (fst (main net py initial)) = 1%Z /\
  length (sent (snd (main net py initial))) = S k.
Proof.
  intros Hlook Hnet.
  assert (fst (main net py initial) = Raise RequestException /\
          length (sent (snd (main net py initial))) = S k) as [He Hlen].
  { unfold main in *. rewrite main_over_unfold in *.
    eapply loop_stops_at_raise; [|exact Hlook|rewrite Hnet; reflexivity]. cbn. lia. }
  rewrite He. repeat split; assumption.
Qed.

Lemma transport_failure_aborts_run_sample :
  fst (main (net_by_url NoResponse (Response (Some body_not_found))) repr_any initial) =
  Raise RequestException.
Proof.
  exact (proj1 (transport_failure_aborts_run
    (net_by_url NoResponse (Response (Some body_not_found))) repr_any
    0 _ _ eq_refl eq_refl)).
Defined.

Lemma loop_requests net py table w :
  exists reqs,
    sent (snd (for_each table (fun '(n, a) => entry net py n a) w)) = sent w ++ reqs /\
    reqs `prefix_of` requests_of table /\
    (fst (for_each table (fun '(n, a) => entry net py n a) w) = Ok tt ->
     reqs = requests_of table).
Proof.
  revert w. induction table as [|[name address] table IH]; intros w.
  - exists []. cbn. rewrite app_nil_r. repeat split. reflexivity.
  - rewrite loop_cons.
    destruct (entry_trace net py name address w) as (res & reqs & lines & -> & Hend).
    change (requests_of ((name, address) :: table))
      with ([(url_of "devnet", payload_of address);
             (url_of "mainnet-beta", payload_of address)] ++ requests_of table).
    destruct Hend as [e H1 | b1 r1 e H1 H2 | b1 r1 b2 r2 res H1 H2 Hres].
    + cbn [fst snd sent]. eexists. split; [reflexivity|]. split; [|discriminate].
      eexists (_ :: _). reflexivity.
    + cbn [fst snd sent]. eexists. split; [reflexivity|]. split; [|discriminate].
      apply prefix_app_r. reflexivity.
    + destruct res as [u|e].
      * destruct (IH (World (sent w ++ [(url_of "devnet", payload_of address);
                                        (url_of "mainnet-beta", payload_of address)])
                            (stdout w ++ header name address :: lines)))
          as (reqs' & -> & Hpre & Hall).
        cbn [sent]. rewrite <- app_assoc. eexists. split; [reflexivity|]. split.
        -- apply prefix_app. exact Hpre.
        -- intros Hok. rewrite (Hall Hok). reflexivity.
      * cbn [fst snd sent]. eexists. split; [reflexivity|]. split; [|discriminate].
        apply prefix_app_r. reflexivity.
Qed.

(** X3: whatever the endpoints answer, the requests of a run are an
    initial part of the table's requests, in table order and DevNet before
    MainnetBeta for each address, so there are at most ten; a run that
    ends normally has sent all ten. *)
Theorem requests_follow_table net py :
  sent (snd (main net py initial)) `prefix_of` requests_of tokens /\
  length (sent (snd (main net py initial))) <= 10 /\
  (fst (main net py initial) = Ok tt ->
   sent (snd (main net py initial)) = requests_of tokens).
Proof.
  unfold main. rewrite main_over_unfold.
  destruct (loop_requests net py tokens
              (World (sent initial)
                     (stdout initial ++
                      ["🔍 VERIFICACIÓN DE TOKENS EN DEVNET"; Py.str_mul "=" 50])))
    as (reqs & -> & Hpre & Hall).
  cbn [sent initial app]. split; [exact Hpre|]. split; [|exact Hall].
  apply prefix_length in Hpre. exact Hpre.
Qed.

Lemma loop_exception net py table w e :
  fst (for_each table (fun '(n, a) => entry net py n a) w) = Raise e ->
  run_exception e.
Proof.
  revert w. induction table as [|[name address] table IH]; intros w; [discriminate|].
  rewrite loop_cons.
  destruct (entry_trace net py name address w) as (res & reqs & lines & -> & Hend).
  destruct Hend as [e1 H1 | b1 r1 e1 H1 H2 | b1 r1 b2 r2 res H1 H2 Hres].
  - intros [= <-]. eapply outcome_raise; eauto.
  - intros [= <-]. eapply outcome_raise; eauto.
  - destruct res as [u|e1]; [apply IH|].
    intros [= <-]. specialize (Hres py w).
    destruct b1; [|discriminate].
    destruct (outcome_true_value _ _ H1) as [v Hv].
    rewrite (owner_report_outcome _ _ _ _ Hv) in Hres.
    unfold owner_print_outcome in Hres.
    destruct (owner_lookup_raises v).
    + injection Hres as <-. unfold run_exception. tauto.
    + destruct (field "owner" v) as [[]|]; try discriminate.
      injection Hres as <-. unfold run_exception. tauto.
Qed.

(** X11: a run ends normally or with one of eight exceptions:
    RequestException from the request; JSONDecodeError, ValueError or
    RecursionError from parsing the body; TypeError, KeyError('result')
    or KeyError('value') from reading the parsed value; UnicodeEncodeError
    from printing the owner.  The subscripts [data["error"]] and
    [account_data["owner"]], guarded by [in], and the driver's
    [result_devnet["value"]] never raise KeyError. *)
Theorem run_exceptions net py e :
  fst (main net py initial) = Raise e ->
  run_exception e /\ e <> KeyError "error" /\ e <> KeyError "owner".
Proof.
  unfold main. rewrite main_over_unfold. intros H.
  apply loop_exception in H. split; [exact H|].
  destruct H as [-> | [-> | [-> | [-> | [-> | [-> | [-> | ->]]]]]]];
    split; discriminate.
Qed.

Lemma run_exceptions_sample :
  run_exception JSONDecodeError.
Proof.
  exact (proj1 (run_exceptions
    (net_by_url (Response (Some body_not_found)) (Response None)) repr_any
    JSONDecodeError eq_refl)).
Defined.

Lemma loop_blocks net py table w :
  exists blocks,
    stdout (snd (for_each table (fun '(n, a) => entry net py n a) w)) =
      stdout w ++ concat blocks /\
    length blocks <= length table /\
    (fst (for_each table (fun '(n, a) => entry net py n a) w) = Ok tt ->
     length blocks = length table) /\
    forall i block,
      blocks !! i = Some block ->
      exists name address rest res,
        table !! i = Some (name, address) /\
        block = header name address :: rest /\
        block_rest py res rest.
Proof.
  revert w. induction table as [|[name address] table IH]; intros w.
  - exists []. cbn. rewrite app_nil_r. repeat split; [lia|].
    intros i block Hi. rewrite lookup_nil in Hi. discriminate.
  - rewrite loop_cons.
    destruct (entry_rest net py name address w) as (lines & E & Hshape).
    destruct (entry net py name address w) as [[u|e] w1] eqn:Hentry;
      cbn [fst snd] in *.
    + destruct (IH w1) as (blocks & -> & Hlen & Hall & Hblocks).
      exists ((header name address :: lines) :: blocks).
      rewrite E. cbn [concat length]. rewrite <- app_assoc.
      split; [reflexivity|]. split; [lia|]. split; [intros Hok; rewrite (Hall Hok); reflexivity|].
      intros [|i] block Hi; cbn in Hi.
      * injection Hi as <-. exists name, address, lines, (Ok u). eauto.
      * apply Hblocks. exact Hi.
    + exists [header name address :: lines].
      rewrite E. cbn [concat length]. rewrite app_nil_r.
      split; [reflexivity|]. split; [lia|]. split; [discriminate|].
      intros [|i] block Hi; cbn in Hi; [|destruct i; discriminate].
      injection Hi as <-. exists name, address, lines, (Raise e). eauto.
Qed.

(** X7: the report of any run is the title and the separator followed by
    one block per entry reached, in table order; the i-th block starts
    with the header of the i-th entry, continues with at most four lines
    of the shapes above, and a run that ends normally has a block for
    every entry of the table. *)
Theorem report_structure net py table :
  exists blocks,
    stdout (snd (main_over net py table initial)) =
      ["🔍 VERIFICACIÓN DE TOKENS EN DEVNET";
       "=================================================="] ++ concat blocks /\
    length blocks <= length table /\
    (fst (main_over net py table initial) = Ok tt -> length blocks = length table) /\
    forall i block,
      blocks !! i = Some block ->
      exists name address rest res,
        table !! i = Some (name, address) /\
        block = header name address :: rest /\
        block_rest py res rest /\
        length rest <= 4.
Proof.
  rewrite main_over_unfold.
  destruct (loop_blocks net py table
              (World (sent initial)
                     (stdout initial ++
                      ["🔍 VERIFICACIÓN DE TOKENS EN DEVNET"; Py.str_mul "=" 50])))
    as (blocks & -> & Hlen & Hall & Hblocks).
  exists blocks. split; [reflexivity|]. split; [exact Hlen|]. split; [exact Hall|].
  intros i block Hi.
  destruct (Hblocks i block Hi) as (name & address & rest & res & Ht & Hb & Hs).
  exists name, address, rest, res. repeat split; try assumption.
  destruct Hs; cbn; lia.
Qed.

(** X10: the two checks of an entry are not conditional on what was
    found.  The header is printed before the first request; when the
    DevNet check raises, the entry has sent that one request and printed
    the header only; when it returns, with either flag, the MainnetBeta
    request for the same address is sent next. *)
Theorem mainnet_checked_whenever_devnet_returns net py name address w :
  ((exists e, fst (check_account net address "devnet" w) = Raise e) ->
   snd (entry net py name address w) =
   World (sent w ++ [("https://api.devnet.solana.com", payload_of address)])
         (stdout w ++ [header name address])) /\
  ((exists b r, fst (check_account net address "devnet" w) = Ok (b, r)) ->
   sent (snd (entry net py name address w)) =
   sent w ++ [("https://api.devnet.solana.com", payload_of address);
              ("https://api.mainnet-beta.solana.com", payload_of address)]).
Proof.
  rewrite check_account_fst, entry_run. cbv zeta. split.
  - intros [e ->]. reflexivity.
  - intros (b & r & ->).
    destruct (outcome (net (S (length (sent w))) _ _)) as [[b2 r2]|e]; [|reflexivity].
    destruct (owner_report_frame py b r
                (World (sent w ++ [(url_of "devnet", payload_of address);
                                   (url_of "mainnet-beta", payload_of address)])
                       (stdout w ++ [header name address; devnet_line b; mainnet_line b2])))
      as (res & lines & ->).
    reflexivity.
Qed.

Lemma mainnet_checked_whenever_devnet_returns_sample :
  sent (snd (entry (net_by_url (Response (Some body_rpc_error)) NoResponse)
                   repr_any "SOL" SOL_MINT initial)) =
  [("https://api.devnet.solana.com", payload_of SOL_MINT);
   ("https://api.mainnet-beta.solana.com", payload_of SOL_MINT)].
Proof.
  refine (proj2 (mainnet_checked_whenever_devnet_returns
    (net_by_url (Response (Some body_rpc_error)) NoResponse)
    repr_any "SOL" SOL_MINT initial) _).
  eexists _, _. reflexivity.
Defined.
